(** * simulacra: the conversation protocol, the Jest subprocess helper,
      the [simulationTest] harness and the turn engine

    A shallow embedding of
    - [simulation/agent/conversationGenerators/BaseConversationGenerator.ts]
      (the message union and the generator interface),
    - the [runJestSimulation] helper (options destructuring, the command line
      and the options object handed to [execa]),
    - [simulation/simulationTest.ts] (the body of the Jest test it registers),
    together with a model of the turn engine ([SimulationAgent] and
    [SimulationAgentRunner]) that the harness drives. *)

From stdpp Require Import gmap strings list fin_maps pretty.

Open Scope string_scope.
Open Scope list_scope.
Open Scope stdpp_scope.

(** ** JavaScript values and objects *)

(** The values that occur in the modelled objects. An array holds strings:
    the only array of the sources is [args?: string[]]. *)
Inductive JsValue : Type :=
| VUndefined
| VNull
| VBool (b : bool)
| VNum (n : Z)
| VStr (s : string)
| VArr (l : list string).

#[global] Instance JsValue_eq_dec : EqDecision JsValue.
Proof. solve_decision. Defined.

(** A plain object: its own enumerable properties. *)
Abbreviation JsObject := (gmap string JsValue).

(** [key in obj] for own properties. *)
Definition has_field (k : string) (o : JsObject) : bool :=
  bool_decide (is_Some (o !! k)).

(** An error value (what a [throw] or a rejected promise carries). *)
Definition JsError : Type := string.

(** A settled promise. *)
Inductive Promise (A : Type) : Type :=
| Resolved (a : A)
| Rejected (e : JsError).
Arguments Resolved {A} a.
Arguments Rejected {A} e.

(** How a synchronous piece of code ends: with a value, or by throwing. *)
Inductive Completion (A : Type) : Type :=
| Normal (a : A)
| Throw (e : JsError).
Arguments Normal {A} a.
Arguments Throw {A} e.

(** The promise an [async] function returns for a body that ended so. *)
Definition async_result {A : Type} (c : Completion A) : Promise A :=
  match c with
  | Normal a => Resolved a
  | Throw e => Rejected e
  end.

(** ** BaseConversationGenerator.ts *)
Module Protocol.

(** The messages the code builds: a value written as one member of
    [ConversationMessage = AssistantConversationMessage | UserConversationMessage],
    with that member's properties and no other. The type itself is wider (see
    [is_ConversationMessage] below): these are its canonical values. *)
Inductive ConversationMessage : Type :=
| AssistantMessage (content : string)   (* { role: 'assistant', content: string } *)
| UserMessage (content : string)        (* { role: 'user', content: string } *)
| UserStop.                             (* { role: 'user', stopTokenReturned: true } *)

#[global] Instance ConversationMessage_eq_dec : EqDecision ConversationMessage.
Proof. solve_decision. Defined.

Definition stopTokenReturned (m : ConversationMessage) : bool :=
  match m with UserStop => true | _ => false end.

(** The object a message is at run time. *)
Definition to_object (m : ConversationMessage) : JsObject :=
  match m with
  | AssistantMessage c =>
      <["role" := VStr "assistant"]> (<["content" := VStr c]> ∅)
  | UserMessage c =>
      <["role" := VStr "user"]> (<["content" := VStr c]> ∅)
  | UserStop =>
      <["role" := VStr "user"]> (<["stopTokenReturned" := VBool true]> ∅)
  end.

(** *** The declared types, on objects

    An object type of TypeScript asks for the listed properties at the listed
    types and says nothing about further properties; a value has a union type
    when it has the type of one of the members. *)
Definition is_string (v : option JsValue) : bool :=
  match v with Some (VStr _) => true | _ => false end.

(** The property [k] holds the literal [v]. *)
Definition has_literal (k : string) (v : JsValue) (o : JsObject) : bool :=
  bool_decide (o !! k = Some v).

(** [{ role: 'assistant', content: string }] *)
Definition is_AssistantConversationMessage (o : JsObject) : bool :=
  has_literal "role" (VStr "assistant") o && is_string (o !! "content").

(** [{ role: 'user', content: string }], the first member of
    [UserConversationMessage]. *)
Definition is_user_content (o : JsObject) : bool :=
  has_literal "role" (VStr "user") o && is_string (o !! "content").

(** [{ role: 'user', stopTokenReturned: true }], the second member. *)
Definition is_user_stop (o : JsObject) : bool :=
  has_literal "role" (VStr "user") o && has_literal "stopTokenReturned" (VBool true) o.

Definition is_UserConversationMessage (o : JsObject) : bool :=
  is_user_content o || is_user_stop o.

Definition is_ConversationMessage (o : JsObject) : bool :=
  is_AssistantConversationMessage o || is_UserConversationMessage o.

(** How many of the three object types of the union an object has. *)
Definition members_matched (o : JsObject) : nat :=
  length (filter (λ b : bool, b = true)
            [is_AssistantConversationMessage o; is_user_content o; is_user_stop o]).

(** A user message that also carries the stop flag. *)
Definition content_and_stop : JsObject :=
  <["role" := VStr "user"]>
    (<["content" := VStr "bye"]> (<["stopTokenReturned" := VBool true]> ∅)).

(** [abstract class AgentConversationGenerator]: an implementation is a type
    of generator objects with the two methods; a method may update the
    object, and [generateResponse] returns a promise. *)
Class AgentConversationGenerator (G : Type) : Type := {
  initialize : option string → G → G;
  generateResponse : ConversationMessage → G → Promise ConversationMessage * G
}.

End Protocol.


(** ** runJestSimulation *)
Module Jest.

(** What [execa(file, arguments, options)] is called with. *)
Record ExecaCall : Type := mkExecaCall {
  file : string;
  arguments : list string;
  options : JsObject
}.

(** [const { args = [], ...execaOptions } = options]: the default is taken
    when the property is missing or [undefined]; the rest object has every
    own property but [args]. *)
Definition args_or_default (options : JsObject) : JsValue :=
  match options !! "args" with
  | None | Some VUndefined => VArr []
  | Some v => v
  end.

Definition execaOptions (options : JsObject) : JsObject :=
  delete "args" options.

(** A byte that continues a UTF-8 sequence (binary 10xxxxxx). *)
Definition is_continuation (c : Ascii.ascii) : bool :=
  let n := Ascii.nat_of_ascii c in (128 <=? n)%nat && (n <? 192)%nat.

Definition continues (s : string) : bool :=
  match s with
  | String c _ => is_continuation c
  | EmptyString => false
  end.

(** The characters of a string, one string each: what iterating it yields.
    Iteration goes by code point; in the UTF-8 bytes of the string a code
    point is a byte followed by its continuation bytes. *)
Fixpoint chars (s : string) : list string :=
  match s with
  | EmptyString => []
  | String c rest =>
      let others := chars rest in
      if continues rest then
        match others with
        | first :: others' => String c first :: others'
        | [] => [String c EmptyString]
        end
      else String c EmptyString :: others
  end.

(** [...args] inside an array literal: arrays and strings are iterable, the
    other values raise a TypeError. *)
Definition spread (v : JsValue) : Completion (list string) :=
  match v with
  | VArr l => Normal l
  | VStr s => Normal (chars s)
  | _ => Throw "TypeError: args is not iterable"
  end.

(** [{ reject: false, stdout: 'pipe', stderr: 'pipe' }] *)
Definition defaults : JsObject :=
  <["reject" := VBool false]> (<["stdout" := VStr "pipe"]> (<["stderr" := VStr "pipe"]> ∅)).

(** [{ ...first, ...second }]: a property of [second] replaces the one of
    [first] ([∪] on maps keeps the left operand's value). *)
Definition object_spread (first second : JsObject) : JsObject :=
  second ∪ first.

(** The call [runJestSimulation] makes, up to the [await]. [jestBin] is the
    path [require.resolve('jest/bin/jest')] gave; [options = None] is a call
    without the second argument, which the parameter default turns into [{}]. *)
Definition runJestSimulation_call (jestBin testFile : string) (options : option JsObject)
  : Completion ExecaCall :=
  let options := default ∅ options in
  let args := args_or_default options in
  let execaOptions := execaOptions options in
  match spread args with
  | Throw e => Throw e
  | Normal args =>
      Normal (mkExecaCall "node"
                ([jestBin; testFile; "--no-color"] ++ args)
                (object_spread defaults execaOptions))
  end.

(** [runJestSimulation] over the process invoker: it awaits the call's
    promise and returns the result as it is. *)
Definition runJestSimulation {Result : Type} (execa : ExecaCall → Promise Result)
    (jestBin testFile : string) (options : option JsObject) : Promise Result :=
  match runJestSimulation_call jestBin testFile options with
  | Throw e => Rejected e
  | Normal call => execa call
  end.

(** *** The process invoker

    [execa] is the npm package of that name (its CommonJS releases, up to
    version 5), an external collaborator. What the model keeps of it:
    - its own checks of the options throw before any child is started:
      [stdio] given together with [stdin], [stdout] or [stderr], a [stdio]
      that is neither a string nor an array, and a [timeout] that is not a
      non-negative number;
    - starting the child may throw as well (what execa's helpers,
      cross-spawn and Node make of the command, the environment and the
      other options), and a started child may fail
      without an exit status (an error event, a signal, a timeout, too much
      output): what happens is the environment's answer to the call;
    - a child that exits gives a result with its exit status; [stdout] and
      [stderr] are captured when the stream is piped ([undefined], [null] or
      ['pipe']) and [buffer] is not turned off, and are [undefined]
      otherwise;
    - a failure of the child (no clean exit, or a non-zero status) rejects
      the promise unless the [reject] option is falsy ([reject] defaults to
      [true]); a throw before the child runs rejects it whatever [reject]
      is. *)

(** A child that exited: its status and the text execa reports for each
    captured stream (decoded, its final newline stripped as the options
    say). *)
Record ProcessExit : Type := mkProcessExit {
  status : Z;
  out : string;
  err : string
}.

Record ExecaResult : Type := mkExecaResult {
  exitCode : option Z;
  stdout : option string;
  stderr : option string;
  failed : bool
}.

(** What the environment answers to a call that passed execa's checks:
    starting the child threw; the child failed without a clean exit, with the
    error and the result execa makes of it; or the child exited. *)
Inductive ChildOutcome : Type :=
| SpawnThrows (e : JsError)
| ChildFailed (e : JsError) (result : ExecaResult)
| Exited (child : ProcessExit).

Definition truthy (v : JsValue) : bool :=
  match v with
  | VUndefined | VNull => false
  | VBool b => b
  | VNum n => negb (n =? 0)%Z
  | VStr s => negb (bool_decide (s = ""))
  | VArr _ => true
  end.

(** [options[k] !== undefined] *)
Definition defined (opts : JsObject) (k : string) : bool :=
  match opts !! k with
  | None | Some VUndefined => false
  | Some _ => true
  end.

(** execa's checks of the options, in their order: [normalizeStdio], then
    [validateTimeout]. [Some e] is the error thrown. *)
Definition execa_validate (opts : JsObject) : option JsError :=
  if defined opts "stdio"
     && (defined opts "stdin" || defined opts "stdout" || defined opts "stderr")
  then Some "It's not possible to provide `stdio` in combination with one of `stdin`, `stdout`, `stderr`"
  else
    match opts !! "stdio" with
    | Some VNull | Some (VBool _) | Some (VNum _) =>
        Some "TypeError: Expected `stdio` to be of type `string` or `Array`"
    | _ =>
        match opts !! "timeout" with
        | None | Some VUndefined => None
        | Some (VNum n) =>
            if (0 <=? n)%Z then None
            else Some "TypeError: Expected the `timeout` option to be a non-negative integer"
        | Some _ => Some "TypeError: Expected the `timeout` option to be a non-negative integer"
        end
    end.

Definition execa_rejects (opts : JsObject) : bool :=
  match opts !! "reject" with
  | None => true
  | Some v => truthy v
  end.

Definition piped (opts : JsObject) (stream : string) : bool :=
  match opts !! stream with
  | None | Some VUndefined | Some VNull | Some (VStr "pipe") => true
  | _ => false
  end.

Definition buffered (opts : JsObject) : bool :=
  match opts !! "buffer" with
  | None => true
  | Some v => truthy v
  end.

Definition captured (opts : JsObject) (stream : string) : bool :=
  piped opts stream && buffered opts.

Definition execa (spawn : ExecaCall → ChildOutcome) (call : ExecaCall)
  : Promise ExecaResult :=
  match execa_validate (options call) with
  | Some e => Rejected e
  | None =>
      match spawn call with
      | SpawnThrows e => Rejected e
      | ChildFailed e result =>
          if execa_rejects (options call) then Rejected e else Resolved result
      | Exited child =>
          let result :=
            mkExecaResult (Some (status child))
              (if captured (options call) "stdout" then Some (out child) else None)
              (if captured (options call) "stderr" then Some (err child) else None)
              (negb (status child =? 0)%Z) in
          if failed result && execa_rejects (options call)
          then Rejected ("Command failed with exit code " +:+ pretty (status child))
          else Resolved result
      end
  end.

(** The array the caller passed as [args] (none for a missing property). *)
Definition caller_args (options : option JsObject) : list string :=
  match default ∅ options !! "args" with
  | Some (VArr l) => l
  | _ => []
  end.

(** [args?: string[]]: the property is missing, [undefined] or an array. *)
Definition args_well_typed (options : option JsObject) : bool :=
  match default ∅ options !! "args" with
  | None | Some VUndefined | Some (VArr _) => true
  | _ => false
  end.

(** The values [...args] cannot iterate. *)
Definition not_iterable (v : JsValue) : bool :=
  match v with
  | VNull | VBool _ | VNum _ => true
  | VUndefined | VStr _ | VArr _ => false
  end.

End Jest.

(** ** simulation/simulationTest.ts *)
Module Harness.

(** A [string[]] lives in a heap and is passed by reference: [logs] is one
    array, shared by the test body, the callback and whatever the callback
    hands it to. A reference is an index into the heap. *)
Abbreviation Ref := nat.
Abbreviation Heap := (list (list string)).

(** The heap, and the state [St] of everything else the collaborators own
    (runner, agent, registered handlers, generator). *)
Record World (St : Type) : Type := mkWorld {
  heap : Heap;
  ext : St
}.
Arguments mkWorld {St} heap ext.
Arguments heap {St} w.
Arguments ext {St} w.

(** [interface SimulationContext] *)
Record SimulationContext (Agent : Type) : Type := mkContext {
  agent : Agent;
  logs : Ref
}.
Arguments mkContext {Agent} agent logs.
Arguments agent {Agent} s.
Arguments logs {Agent} s.

(** What a call of [fn] hands back: [void], or a promise that settles after
    the rest of the callback has run. A synchronous [throw] is the call's
    [Throw] completion. *)
Inductive FnReturn (St : Type) : Type :=
| ReturnsVoid
| ReturnsPromise (settle : World St → Promise unit * World St).
Arguments ReturnsVoid {St}.
Arguments ReturnsPromise {St} settle.

(** [type SimulationFn = (context: SimulationContext) => void | Promise<void>] *)
Definition SimulationFn (Agent St : Type) : Type :=
  SimulationContext Agent → World St → Completion (FnReturn St) * World St.

(** The part of [SimulationAgentRunner] the harness uses; the class itself
    is imported from [./SimulationAgentRunner]. The constructor and
    [getAgent] are handed no array reference, so they act on [St] alone;
    [runAllTurns] runs the handlers the callback installed, which may hold
    [logs], and is awaited. *)
Class SimulationAgentRunner (Args Runner Agent St : Type) : Type := {
  new_SimulationAgentRunner : Args → St → Completion Runner * St;
  getAgent : Runner → St → Completion Agent * St;
  runAllTurns : Runner → World St → Promise unit * World St
}.

Section Body.
Context {Args Runner Agent St : Type} `{!SimulationAgentRunner Args Runner Agent St}.

(** The statements of the test body, as they are reached. *)
Inductive Label : Type :=
| NewLogs                                      (* const logs: string[] = [] *)
| Construct (agentArgs : Args)                 (* new SimulationAgentRunner(agentArgs) *)
| GetAgent (runner : Runner)                   (* runner.getAgent() *)
| CallFn (context : SimulationContext Agent)   (* fn(context) *)
| AwaitFn                                      (* await <what fn returned> *)
| RunAllTurns (runner : Runner).               (* await runner.runAllTurns() *)

(** One executed statement: the world it started in, the world it left, and
    whether it completed without throwing. *)
Record Entry : Type := mkEntry {
  label : Label;
  before : World St;
  after : World St;
  normal : bool
}.

Definition is_normal {A : Type} (c : Completion A) : bool :=
  match c with Normal _ => true | Throw _ => false end.

(** The test body is a computation over the world that also keeps the log of
    the statements it executed; a [Throw] skips what follows. *)
Definition Test (A : Type) : Type :=
  World St → list Entry → Completion A * World St * list Entry.

Definition test_ret {A : Type} (a : A) : Test A :=
  λ w tr, (Normal a, w, tr).

Definition test_bind {A B : Type} (m : Test A) (k : A → Test B) : Test B :=
  λ w tr,
    match m w tr with
    | (Normal a, w', tr') => k a w' tr'
    | (Throw e, w', tr') => (Throw e, w', tr')
    end.

Definition statement {A : Type} (l : Label) (c : World St → Completion A * World St)
  : Test A :=
  λ w tr, let '(r, w') := c w in (r, w', tr ++ [mkEntry l w w' (is_normal r)]).

(** [[]]: a new empty array at the next free reference. *)
Definition new_array (w : World St) : Completion Ref * World St :=
  (Normal (length (heap w)), mkWorld (heap w ++ [[]]) (ext w)).

(** A collaborator that holds no array reference leaves the heap alone. *)
Definition on_ext {A : Type} (c : St → Completion A * St) (w : World St)
  : Completion A * World St :=
  let '(r, s) := c (ext w) in (r, mkWorld (heap w) s).

(** [await p]: resumes with the value, or throws the rejection. *)
Definition await {A : Type} (p : World St → Promise A * World St) (w : World St)
  : Completion A * World St :=
  match p w with
  | (Resolved a, w') => (Normal a, w')
  | (Rejected e, w') => (Throw e, w')
  end.

(** [await fn(context)] on what the call returned: a non-promise is awaited
    without running anything of the callback's. *)
Definition await_returned (v : FnReturn St) : World St → Completion unit * World St :=
  match v with
  | ReturnsVoid => λ w, (Normal tt, w)
  | ReturnsPromise settle => await settle
  end.

(** The [async () => { ... }] passed to [test]. *)
Definition simulationTest_body (agentArgs : Args) (fn : SimulationFn Agent St) : Test unit :=
  test_bind (statement NewLogs new_array) (λ logs,
  test_bind (statement (Construct agentArgs)
               (on_ext (new_SimulationAgentRunner agentArgs))) (λ runner,
  test_bind (statement (GetAgent runner) (on_ext (getAgent runner))) (λ agent,
  let context := mkContext agent logs in
  test_bind (statement (CallFn context) (fn context)) (λ returned,
  test_bind (statement AwaitFn (await_returned returned)) (λ _,
  statement (RunAllTurns runner) (await (runAllTurns runner))))))).

(** A test registered with Jest: its name and its body. Running the body
    gives the promise of the [async] function, the world it leaves and the
    log of executed statements. *)
Record JestTest : Type := mkJestTest {
  test_name : string;
  test_fn : World St → Promise unit * World St * list Entry
}.

(** [simulationTest(name, agentArgs, fn)] *)
Definition simulationTest (name : string) (agentArgs : Args) (fn : SimulationFn Agent St)
  : JestTest :=
  mkJestTest name
    (λ w, let '(r, w', tr) := simulationTest_body agentArgs fn w [] in
          (async_result r, w', tr)).

Definition labels (tr : list Entry) : list Label := label <$> tr.



(** The world right after [const logs: string[] = []]. *)
Definition allocated (w : World St) : World St :=
  mkWorld (heap w ++ [[]]) (ext w).

Definition is_resolved {A : Type} (p : Promise A) : bool :=
  match p with Resolved _ => true | Rejected _ => false end.

(** The ways a run of the test body can go, read off [simulationTest_body]:
    each statement may throw and end the run with that rejection; the last
    one settles the test's promise. *)
Inductive Run (agentArgs : Args) (fn : SimulationFn Agent St) (w : World St)
  : Promise unit → World St → list Entry → Prop :=
| ConstructorThrows e s1 :
    new_SimulationAgentRunner agentArgs (ext w) = (Throw e, s1) →
    Run agentArgs fn w (Rejected e) (mkWorld (heap w ++ [[]]) s1)
      [mkEntry NewLogs w (allocated w) true;
       mkEntry (Construct agentArgs) (allocated w) (mkWorld (heap w ++ [[]]) s1) false]
| GetAgentThrows runner s1 e s2 :
    new_SimulationAgentRunner agentArgs (ext w) = (Normal runner, s1) →
    getAgent runner s1 = (Throw e, s2) →
    Run agentArgs fn w (Rejected e) (mkWorld (heap w ++ [[]]) s2)
      [mkEntry NewLogs w (allocated w) true;
       mkEntry (Construct agentArgs) (allocated w) (mkWorld (heap w ++ [[]]) s1) true;
       mkEntry (GetAgent runner) (mkWorld (heap w ++ [[]]) s1)
         (mkWorld (heap w ++ [[]]) s2) false]
| FnThrows runner s1 agent s2 e w3 :
    new_SimulationAgentRunner agentArgs (ext w) = (Normal runner, s1) →
    getAgent runner s1 = (Normal agent, s2) →
    fn (mkContext agent (length (heap w))) (mkWorld (heap w ++ [[]]) s2) = (Throw e, w3) →
    Run agentArgs fn w (Rejected e) w3
      [mkEntry NewLogs w (allocated w) true;
       mkEntry (Construct agentArgs) (allocated w) (mkWorld (heap w ++ [[]]) s1) true;
       mkEntry (GetAgent runner) (mkWorld (heap w ++ [[]]) s1)
         (mkWorld (heap w ++ [[]]) s2) true;
       mkEntry (CallFn (mkContext agent (length (heap w))))
         (mkWorld (heap w ++ [[]]) s2) w3 false]
| FnRejects runner s1 agent s2 returned w3 e w4 :
    new_SimulationAgentRunner agentArgs (ext w) = (Normal runner, s1) →
    getAgent runner s1 = (Normal agent, s2) →
    fn (mkContext agent (length (heap w))) (mkWorld (heap w ++ [[]]) s2)
      = (Normal returned, w3) →
    await_returned returned w3 = (Throw e, w4) →
    Run agentArgs fn w (Rejected e) w4
      [mkEntry NewLogs w (allocated w) true;
       mkEntry (Construct agentArgs) (allocated w) (mkWorld (heap w ++ [[]]) s1) true;
       mkEntry (GetAgent runner) (mkWorld (heap w ++ [[]]) s1)
         (mkWorld (heap w ++ [[]]) s2) true;
       mkEntry (CallFn (mkContext agent (length (heap w))))
         (mkWorld (heap w ++ [[]]) s2) w3 true;
       mkEntry AwaitFn w3 w4 false]
| TurnsRun runner s1 agent s2 returned w3 w4 p w5 :
    new_SimulationAgentRunner agentArgs (ext w) = (Normal runner, s1) →
    getAgent runner s1 = (Normal agent, s2) →
    fn (mkContext agent (length (heap w))) (mkWorld (heap w ++ [[]]) s2)
      = (Normal returned, w3) →
    await_returned returned w3 = (Normal tt, w4) →
    runAllTurns runner w4 = (p, w5) →
    Run agentArgs fn w p w5
      [mkEntry NewLogs w (allocated w) true;
       mkEntry (Construct agentArgs) (allocated w) (mkWorld (heap w ++ [[]]) s1) true;
       mkEntry (GetAgent runner) (mkWorld (heap w ++ [[]]) s1)
         (mkWorld (heap w ++ [[]]) s2) true;
       mkEntry (CallFn (mkContext agent (length (heap w))))
         (mkWorld (heap w ++ [[]]) s2) w3 true;
       mkEntry AwaitFn w3 w4 true;
       mkEntry (RunAllTurns runner) w4 w5 (is_resolved p)].

(** [async context => fn(context)]: the callback wrapped in an [async]
    function. The wrapper always returns a promise: one that rejects with
    what [fn] threw, one that is resolved when [fn] returned nothing, and
    the promise of [fn] otherwise. *)
Definition as_async (fn : SimulationFn Agent St) : SimulationFn Agent St :=
  λ context w,
    match fn context w with
    | (Throw e, w') => (Normal (ReturnsPromise (λ w'', (Rejected e, w''))), w')
    | (Normal ReturnsVoid, w') => (Normal (ReturnsPromise (λ w'', (Resolved tt, w''))), w')
    | (Normal (ReturnsPromise settle), w') => (Normal (ReturnsPromise settle), w')
    end.

(** The place of a statement in the test body, counted from 0. *)
Definition statement_index (l : Label) : nat :=
  match l with
  | NewLogs => 0
  | Construct _ => 1
  | GetAgent _ => 2
  | CallFn _ => 3
  | AwaitFn => 4
  | RunAllTurns _ => 5
  end.

End Body.

End Harness.

(** ** The turn engine: SimulationAgent and SimulationAgentRunner

    [./agent/SimulationAgent] and [./SimulationAgentRunner] are imported by
    [simulationTest.ts]; the definitions of this module model them. *)
Module Engine.
Import Protocol.

(** Modelled from the spec: the reason a [conversationEnd] event carries
    ("stop-token" or "max-turns"); the emitting code is in the missing
    [SimulationAgent]. *)
Inductive EndReason : Type := StopToken | MaxTurns.

Definition reason_text (r : EndReason) : string :=
  match r with
  | StopToken => "stop-token"
  | MaxTurns => "max-turns"
  end.

(** Modelled from the spec: [SimulationState], the per-turn snapshot given to
    observers (the 1-based [currentTurn] and the latest exchanged message);
    its declaration is in the missing [SimulationAgent]. *)
Record SimulationState : Type := mkState {
  currentTurn : Z;
  latest : ConversationMessage
}.

(** Modelled from the spec: the lifecycle events of the missing
    [SimulationAgent] ([turnStart], [turnEnd], [conversationEnd]). *)
Inductive Event : Type :=
| TurnStart (state : SimulationState)
| TurnEnd (state : SimulationState)
| ConversationEnd (reason : EndReason) (currentTurn : Z).

(** Modelled from the spec: the names under which observers subscribe on the
    missing agent's [events] channel. *)
Inductive EventName : Type := turnStart | turnEnd | conversationEnd.

#[global] Instance EventName_eq_dec : EqDecision EventName.
Proof. solve_decision. Defined.

Definition event_name (e : Event) : EventName :=
  match e with
  | TurnStart _ => turnStart
  | TurnEnd _ => turnEnd
  | ConversationEnd _ _ => conversationEnd
  end.

(** An event without its message payload: which event, of which turn. *)
Inductive Mark : Type :=
| StartOf (turn : Z)
| EndOf (turn : Z)
| Ended (reason : EndReason) (turn : Z).

Definition mark (e : Event) : Mark :=
  match e with
  | TurnStart s => StartOf (currentTurn s)
  | TurnEnd s => EndOf (currentTurn s)
  | ConversationEnd r n => Ended r n
  end.

(** Modelled from the spec: a handler registered on the missing agent's
    [events] channel. It runs synchronously at emission; what it can reach
    of the test's state is the heap (the [logs] array it closed over). *)
Definition Handler : Type := Event → Harness.Heap → Harness.Heap.

(** Modelled from the spec: the states {Idle, Running, Terminal} of the
    missing [SimulationAgent]. *)
Inductive Status : Type := Idle | Running | Terminal.

(** Modelled from the spec: [AgentConstructorArgs] (role, task, the generator
    that produces the input, and [maxTurns]); its declaration is in the
    missing [SimulationAgent]. *)
Record AgentConstructorArgs (G : Type) : Type := mkArgs {
  args_role : string;
  args_task : string;
  inputFn : G;
  maxTurns : Z
}.
Arguments mkArgs {G} args_role args_task inputFn maxTurns.
Arguments args_role {G} a.
Arguments args_task {G} a.
Arguments inputFn {G} a.
Arguments maxTurns {G} a.

(** Modelled from the spec: the missing class [SimulationAgent]: it owns the
    generator, the turn counter and the [events] registry (event name to
    handlers, in registration order). [emitted] records what was emitted. *)
Record SimulationAgent (G : Type) : Type := mkAgent {
  generator : G;
  limit : Z;
  turn : Z;
  status : Status;
  lastMessage : ConversationMessage;
  events : list (EventName * Handler);
  emitted : list Event
}.
Arguments mkAgent {G} generator limit turn status lastMessage events emitted.
Arguments generator {G} s.
Arguments limit {G} s.
Arguments turn {G} s.
Arguments status {G} s.
Arguments lastMessage {G} s.
Arguments events {G} s.
Arguments emitted {G} s.

(** Modelled from the spec: the deterministic variant of the generator (the
    missing [DeterministicConversationGenerator]): a pure function of the
    turn index, consulted at the index of the call. *)
Record DeterministicConversationGenerator : Type := mkDeterministic {
  script : Z → ConversationMessage;
  position : Z
}.

#[global] Instance Deterministic_generator
  : AgentConversationGenerator DeterministicConversationGenerator := {
  initialize _ g := mkDeterministic (script g) 1;
  generateResponse _ g :=
    (Resolved (script g (position g)), mkDeterministic (script g) (position g + 1))
}.

Section Agent.
Context {G : Type} `{!AgentConversationGenerator G}.

(** Modelled from the spec: [events.on(name, handler)] of the missing agent;
    a handler is added after those already registered. *)
Definition on (name : EventName) (h : Handler) (a : SimulationAgent G) : SimulationAgent G :=
  mkAgent (generator a) (limit a) (turn a) (status a) (lastMessage a)
    (events a ++ [(name, h)]) (emitted a).

(** Modelled from the spec: emission in the missing agent: synchronous, to
    the handlers registered under the event's name, in order. *)
Definition deliver (e : Event) (hs : list (EventName * Handler)) (h : Harness.Heap)
  : Harness.Heap :=
  foldl (λ h nh, if decide (nh.1 = event_name e) then nh.2 e h else h) h hs.

(** Modelled from the spec: one emission of the missing agent: the event is
    recorded and delivered. *)
Definition emit (e : Event) (a : SimulationAgent G) (h : Harness.Heap)
  : SimulationAgent G * Harness.Heap :=
  (mkAgent (generator a) (limit a) (turn a) (status a) (lastMessage a)
     (events a) (emitted a ++ [e]),
   deliver e (events a) h).

(** Modelled from the spec: the constructor of the missing [SimulationAgent]:
    a non-positive [maxTurns] fails fast; otherwise the agent is idle, no
    turn run. The task opens the conversation on the user side. *)
Definition new_SimulationAgent (args : AgentConstructorArgs G)
  : Completion (SimulationAgent G) :=
  if (maxTurns args <=? 0)%Z
  then Throw "maxTurns must be a positive integer"
  else Normal (mkAgent (inputFn args) (maxTurns args) 0 Idle
                 (UserMessage (args_task args)) [] []).

(** Modelled from the spec: [runTurn()] of the missing [SimulationAgent]. A
    terminal agent reports so and does nothing. Otherwise the counter
    advances, [turnStart] is emitted, the generator is asked for the next
    message (it is initialised when the agent leaves Idle), [turnEnd] is
    emitted, and the terminal conditions are checked: the stop sentinel
    first, then the turn limit. A rejected generation rejects the turn. *)
Definition runTurn (a : SimulationAgent G) (h : Harness.Heap)
  : Promise bool * SimulationAgent G * Harness.Heap :=
  match status a with
  | Terminal => (Resolved true, a, h)
  | st =>
      let g := match st with Idle => initialize None (generator a) | _ => generator a end in
      let n := (turn a + 1)%Z in
      let input := lastMessage a in
      let a1 := mkAgent g (limit a) n Running input (events a) (emitted a) in
      let '(a2, h2) := emit (TurnStart (mkState n input)) a1 h in
      match generateResponse input g with
      | (Rejected e, g') =>
          (Rejected e,
           mkAgent g' (limit a2) (turn a2) (status a2) (lastMessage a2)
             (events a2) (emitted a2),
           h2)
      | (Resolved m, g') =>
          let a3 := mkAgent g' (limit a2) n Running m (events a2) (emitted a2) in
          let '(a4, h4) := emit (TurnEnd (mkState n m)) a3 h2 in
          let finish (r : EndReason) :=
            let '(a5, h5) := emit (ConversationEnd r n) a4 h4 in
            (Resolved true,
             mkAgent (generator a5) (limit a5) (turn a5) Terminal (lastMessage a5)
               (events a5) (emitted a5),
             h5) in
          if stopTokenReturned m then finish StopToken
          else if (limit a <=? n)%Z then finish MaxTurns
          else (Resolved false, a4, h4)
      end
  end.

(** Modelled from the spec: the missing class [SimulationAgentRunner], which
    owns exactly one agent. *)
Record Runner : Type := mkRunner {
  agent : SimulationAgent G
}.

(** Modelled from the spec: the constructor of the missing
    [SimulationAgentRunner]: it constructs the agent and performs no turn. *)
Definition new_Runner (args : AgentConstructorArgs G) : Completion Runner :=
  match new_SimulationAgent args with
  | Throw e => Throw e
  | Normal a => Normal (mkRunner a)
  end.

(** Modelled from the spec: [getAgent()] of the missing runner. *)
Definition getAgent (r : Runner) : SimulationAgent G := agent r.

(** Modelled from the spec: the loop of [runAllTurns()]: the per-turn advance
    is repeated until a turn reports a terminal condition or the remaining
    turns are used up; a rejected turn rejects the run. *)
Fixpoint drive (remaining : nat) (a : SimulationAgent G) (h : Harness.Heap)
  : Promise unit * SimulationAgent G * Harness.Heap :=
  match remaining with
  | O => (Resolved tt, a, h)
  | S k =>
      match runTurn a h with
      | (Rejected e, a', h') => (Rejected e, a', h')
      | (Resolved true, a', h') => (Resolved tt, a', h')
      | (Resolved false, a', h') => drive k a' h'
      end
  end.

(** Modelled from the spec: [runAllTurns()] of the missing runner. *)
Definition runAllTurns (r : Runner) (h : Harness.Heap)
  : Promise unit * Runner * Harness.Heap :=
  let a := agent r in
  let '(p, a', h') := drive (Z.to_nat (limit a - turn a)) a h in
  (p, mkRunner a', h').

(** The runner objects allocated so far; a runner (and the agent it owns) is
    referred to by its index. The three functions below are the modelled
    runner's constructor, [getAgent()] and [runAllTurns()] on a runner of the
    store, as [simulationTest] calls them. *)
Definition Store : Type := list Runner.

Definition store_new (args : AgentConstructorArgs G) (s : Store) : Completion nat * Store :=
  match new_Runner args with
  | Throw e => (Throw e, s)
  | Normal r => (Normal (length s), s ++ [r])
  end.

Definition store_getAgent (r : nat) (s : Store) : Completion nat * Store :=
  (Normal r, s).

Definition store_runAllTurns (r : nat) (w : Harness.World Store)
  : Promise unit * Harness.World Store :=
  match Harness.ext w !! r with
  | None => (Rejected "TypeError: runner is undefined", w)
  | Some runner =>
      let '(p, runner', h') := runAllTurns runner (Harness.heap w) in
      (p, Harness.mkWorld h' (<[r := runner']> (Harness.ext w)))
  end.

(** [agent.events.on(name, handler)] on the agent of runner [r] in the store. *)
Definition store_on (r : nat) (name : EventName) (h : Handler) (s : Store) : Store :=
  match s !! r with
  | None => s
  | Some runner => <[r := mkRunner (on name h (agent runner))]> s
  end.

(** The turns run so far by all the runners of a store. *)
Definition turns_run (s : Store) : Z :=
  foldr (λ r n, (turn (agent r) + n)%Z) 0%Z s.

End Agent.

#[global] Instance Engine_runner {G : Type} `{!AgentConversationGenerator G}
  : Harness.SimulationAgentRunner (AgentConstructorArgs G) nat nat (@Store G) := {
  Harness.new_SimulationAgentRunner := store_new;
  Harness.getAgent := store_getAgent;
  Harness.runAllTurns := store_runAllTurns
}.

(** The scripted generator of an agent that can still run a turn is in step
    with the turn counter: the next call consults the script at the index of
    the next turn. (An idle agent initialises the generator first.) *)
Definition in_step (f : Z → ConversationMessage)
    (a : SimulationAgent DeterministicConversationGenerator) : Prop :=
  script (generator a) = f
  ∧ match status a with
    | Idle => turn a = 0%Z
    | Running => position (generator a) = (turn a + 1)%Z
    | Terminal => False
    end.

(** The marks of a run of turns [first .. first + count - 1]. *)
Fixpoint turn_marks (first : Z) (count : nat) : list Mark :=
  match count with
  | O => []
  | S k => StartOf first :: EndOf first :: turn_marks (first + 1) k
  end.

End Engine.

(** ** Concrete scenarios

    The tests of the documentation, used to run the definitions above. *)
Module Scenario.
Import Protocol Engine.

(** A script that always answers with content. *)
Definition always_content : Z → ConversationMessage :=
  λ _, AssistantMessage "ok".

(** A script that returns the stop sentinel on turn 2. *)
Definition stop_on_second : Z → ConversationMessage :=
  λ i, if (i =? 2)%Z then UserStop else AssistantMessage "ok".

(** [{ role: 'test', task: 'example', inputFn, maxTurns }] *)
Definition agentArgs (f : Z → ConversationMessage) (n : Z)
  : AgentConstructorArgs DeterministicConversationGenerator :=
  mkArgs "test" "example" (mkDeterministic f 1) n.

(** [logs.push(line)] *)
Definition push (logs : Harness.Ref) (line : string) (h : Harness.Heap) : Harness.Heap :=
  match h !! logs with
  | Some lines => <[logs := lines ++ [line]]> h
  | None => h
  end.

(** [state => logs.push(`Turn ${state.currentTurn}`)] *)
Definition log_turn (logs : Harness.Ref) : Handler :=
  λ e h,
    match e with
    | TurnStart s => push logs ("Turn " +:+ pretty (currentTurn s)) h
    | _ => h
    end.

(** [agent.events.on('turnStart', ...)] as the callback's world change. *)
Definition install_log_turn (context : Harness.SimulationContext nat)
    (w : Harness.World (@Store DeterministicConversationGenerator))
  : Harness.World (@Store DeterministicConversationGenerator) :=
  Harness.mkWorld (Harness.heap w)
    (store_on (Harness.agent context) turnStart (log_turn (Harness.logs context))
       (Harness.ext w)).

(** The callback of the documentation's example: an [async] function that
    installs the handler and completes. *)
Definition captures_turns
  : Harness.SimulationFn nat (@Store DeterministicConversationGenerator) :=
  λ context w,
    (Normal (Harness.ReturnsPromise (λ w', (Resolved tt, w'))), install_log_turn context w).

(** An [async] callback that installs the handler, logs a line and then
    fails: the promise it returned rejects. *)
Definition failing_setup
  : Harness.SimulationFn nat (@Store DeterministicConversationGenerator) :=
  λ context w,
    (Normal (Harness.ReturnsPromise
               (λ w', (Rejected "setup failed",
                       Harness.mkWorld (push (Harness.logs context) "setting up"
                                          (Harness.heap w'))
                         (Harness.ext w')))),
     install_log_turn context w).

(** An empty world: no array, no runner. *)
Definition empty_world : Harness.World (@Store DeterministicConversationGenerator) :=
  Harness.mkWorld [] [].

(** The runner that [new SimulationAgentRunner(agentArgs always_content 3)]
    makes, and the same runner with the handler of the callbacks installed. *)
Definition fresh_runner : @Runner DeterministicConversationGenerator :=
  mkRunner (mkAgent (mkDeterministic always_content 1) 3 0 Idle (UserMessage "example") [] []).

Definition observed_runner : @Runner DeterministicConversationGenerator :=
  mkRunner (on turnStart (log_turn 0) (agent fresh_runner)).

(** An [async] callback that awaits first and installs the handler only
    afterwards: the handler is in place when the promise has settled, not when
    the call returns. *)
Definition captures_turns_after_await
  : Harness.SimulationFn nat (@Store DeterministicConversationGenerator) :=
  λ context w,
    (Normal (Harness.ReturnsPromise (λ w', (Resolved tt, install_log_turn context w'))), w).

(** A synchronous callback that installs the handler and returns nothing. *)
Definition captures_turns_sync
  : Harness.SimulationFn nat (@Store DeterministicConversationGenerator) :=
  λ context w, (Normal Harness.ReturnsVoid, install_log_turn context w).

End Scenario.

(** * Properties *)

(** ** The message union *)
Section ProtocolFacts.
Import Protocol.

Lemma is_string_is_Some (v : option JsValue) : is_string v = true → is_Some v.
Proof. destruct v as [[]|]; simpl; (discriminate || eauto). Qed.

(** The messages the code builds have the type, in exactly one member, and
    carry [content] or [stopTokenReturned], never both. *)
Lemma canonical_message (m : ConversationMessage) :
  is_ConversationMessage (to_object m) = true
  ∧ members_matched (to_object m) = 1
  ∧ has_field "content" (to_object m) && has_field "stopTokenReturned" (to_object m) = false.
Proof. by destruct m. Qed.

(** C4 (as the code has it): every object of type [ConversationMessage] has
    role ['assistant'] or ['user'] and a string [content] or
    [stopTokenReturned: true]; it has the type of at least one and at most
    two of the three members; with role ['assistant'] it has a string
    [content] and the type of that member only; it has the type of two
    members exactly when it is a user message that carries both a string
    [content] and [stopTokenReturned: true]; an object that does not carry
    both properties has the type of exactly one member. *)
Theorem ConversationMessage_members (o : JsObject) :
  is_ConversationMessage o = true →
  (1 ≤ members_matched o ≤ 2)%nat
  ∧ (o !! "role" = Some (VStr "assistant") ∨ o !! "role" = Some (VStr "user"))
  ∧ (is_string (o !! "content") = true ∨ o !! "stopTokenReturned" = Some (VBool true))
  ∧ (o !! "role" = Some (VStr "assistant") →
       is_string (o !! "content") = true ∧ members_matched o = 1)
  ∧ (members_matched o = 2
     ↔ o !! "role" = Some (VStr "user")
       ∧ is_string (o !! "content") = true
       ∧ o !! "stopTokenReturned" = Some (VBool true))
  ∧ (has_field "content" o && has_field "stopTokenReturned" o = false →
       members_matched o = 1).
Proof.
  unfold is_ConversationMessage, is_UserConversationMessage, members_matched,
    is_AssistantConversationMessage, is_user_content, is_user_stop, has_literal, has_field.
  intros H.
  pose proof (is_string_is_Some (o !! "content")) as Hcontent.
  destruct (is_string (o !! "content")); repeat case_bool_decide; simpl in *;
    try discriminate; try congruence.
  all: repeat split; intros; try lia; try congruence; try tauto; auto.
  all: match goal with Hn : ¬ is_Some _ |- _ => exfalso; apply Hn; eauto end.
Qed.

Lemma ConversationMessage_members_witness :
  (1 ≤ members_matched content_and_stop ≤ 2)%nat
  ∧ (content_and_stop !! "role" = Some (VStr "assistant")
     ∨ content_and_stop !! "role" = Some (VStr "user"))
  ∧ (is_string (content_and_stop !! "content") = true
     ∨ content_and_stop !! "stopTokenReturned" = Some (VBool true))
  ∧ (content_and_stop !! "role" = Some (VStr "assistant") →
       is_string (content_and_stop !! "content") = true
       ∧ members_matched content_and_stop = 1)
  ∧ (members_matched content_and_stop = 2
     ↔ content_and_stop !! "role" = Some (VStr "user")
       ∧ is_string (content_and_stop !! "content") = true
       ∧ content_and_stop !! "stopTokenReturned" = Some (VBool true))
  ∧ (has_field "content" content_and_stop
     && has_field "stopTokenReturned" content_and_stop = false →
       members_matched content_and_stop = 1).
Proof. exact (ConversationMessage_members content_and_stop eq_refl). Defined.

(** C4, refuted as stated: the object [{ role: 'user', content: 'bye',
    stopTokenReturned: true }] has the type [ConversationMessage]; it has the
    type of both user members, not of exactly one, and it carries both a
    [content] and a [stopTokenReturned] property. *)
Lemma message_with_content_and_stop :
  is_ConversationMessage content_and_stop = true
  ∧ is_user_content content_and_stop = true
  ∧ is_user_stop content_and_stop = true
  ∧ members_matched content_and_stop = 2
  ∧ has_field "content" content_and_stop
    && has_field "stopTokenReturned" content_and_stop = true.
Proof. repeat split. Qed.

End ProtocolFacts.

(** ** runJestSimulation *)
Section JestFacts.
Import Jest.

Lemma spread_well_typed (options : option JsObject) :
  args_well_typed options = true →
  spread (args_or_default (default ∅ options)) = Normal (caller_args options).
Proof.
  unfold args_well_typed, caller_args, args_or_default.
  destruct (default ∅ options !! "args") as [[]|]; simpl; congruence.
Qed.

Lemma call_inv jestBin testFile options call :
  runJestSimulation_call jestBin testFile options = Normal call →
  ∃ rest,
    spread (args_or_default (default ∅ options)) = Normal rest
    ∧ call = mkExecaCall "node" ([jestBin; testFile; "--no-color"] ++ rest)
               (object_spread defaults (execaOptions (default ∅ options))).
Proof.
  unfold runJestSimulation_call.
  destruct (spread _) as [rest|e]; [|discriminate].
  intros [= <-]. by exists rest.
Qed.

Lemma call_well_typed jestBin testFile options :
  args_well_typed options = true →
  runJestSimulation_call jestBin testFile options =
  Normal (mkExecaCall "node" ([jestBin; testFile; "--no-color"] ++ caller_args options)
            (object_spread defaults (execaOptions (default ∅ options)))).
Proof.
  intros Hty. unfold runJestSimulation_call. by rewrite (spread_well_typed _ Hty).
Qed.

Lemma forwarded_lookup (given : JsObject) (k : string) :
  k ≠ "args" →
  object_spread defaults (execaOptions given) !! k =
  match given !! k with Some v => Some v | None => defaults !! k end.
Proof.
  intros Hk. unfold object_spread, execaOptions.
  rewrite lookup_union, lookup_delete_ne by done.
  destruct (given !! k), (defaults !! k); reflexivity.
Qed.

(** C7: in every call the helper makes to the process invoker, the program
    is [node] and the arguments are [jestBin; testFile; "--no-color"]
    followed by the elements of the caller's [args]: the flag comes right
    after the test file and before every caller-supplied argument. With well
    typed options the call is always made, and the elements are the caller's
    array. *)
Theorem runJestSimulation_no_color_flag
    {Result : Type} (execa : ExecaCall → Promise Result)
    (jestBin testFile : string) (options : option JsObject) :
  (∀ call,
     runJestSimulation_call jestBin testFile options = Normal call →
     runJestSimulation execa jestBin testFile options = execa call
     ∧ file call = "node"
     ∧ arguments call !! 1 = Some testFile
     ∧ arguments call !! 2 = Some "--no-color"
     ∧ spread (args_or_default (default ∅ options)) = Normal (drop 3 (arguments call))
     ∧ arguments call = jestBin :: testFile :: "--no-color" :: drop 3 (arguments call))
  ∧ (args_well_typed options = true →
     ∃ call,
       runJestSimulation_call jestBin testFile options = Normal call
       ∧ runJestSimulation execa jestBin testFile options = execa call
       ∧ arguments call = jestBin :: testFile :: "--no-color" :: caller_args options).
Proof.
  split.
  - intros call Hcall. unfold runJestSimulation. rewrite Hcall.
    apply call_inv in Hcall as (rest & Hrest & ->). by repeat split.
  - intros Hty. eexists. split; [by apply call_well_typed|].
    unfold runJestSimulation. by rewrite (call_well_typed _ _ _ Hty).
Qed.

Lemma runJestSimulation_no_color_flag_witness :
  ∃ call,
    runJestSimulation_call "jest.js" "agent.test.ts"
      (Some (<["args" := VArr ["--ci"; "--silent"]]> ∅)) = Normal call
    ∧ runJestSimulation (execa (λ _, Exited (mkProcessExit 0 "" "")))
        "jest.js" "agent.test.ts" (Some (<["args" := VArr ["--ci"; "--silent"]]> ∅))
      = execa (λ _, Exited (mkProcessExit 0 "" "")) call
    ∧ arguments call = ["jest.js"; "agent.test.ts"; "--no-color"; "--ci"; "--silent"].
Proof.
  exact (proj2 (runJestSimulation_no_color_flag (execa (λ _, Exited (mkProcessExit 0 "" "")))
                  "jest.js" "agent.test.ts"
                  (Some (<["args" := VArr ["--ci"; "--silent"]]> ∅)))
           eq_refl).
Defined.

(** C9: the helper hands the process invoker one call, built from the
    options: whenever a call is built, the helper's promise is the invoker's
    promise for that call, and in the options of that call every property of
    the caller's options other than [args] has the caller's value, also where
    a default exists; a default is used only for a property the caller left
    out; [args] is not among them, and its elements end the argument list.
    With well typed options the call is always built. *)
Theorem runJestSimulation_options_forwarded
    {Result : Type} (execa : ExecaCall → Promise Result)
    (jestBin testFile : string) (options : option JsObject) :
  (∀ call,
     runJestSimulation_call jestBin testFile options = Normal call →
     runJestSimulation execa jestBin testFile options = execa call
     ∧ (∀ k v, k ≠ "args" → default ∅ options !! k = Some v →
          Jest.options call !! k = Some v)
     ∧ (∀ k, k ≠ "args" → default ∅ options !! k = None →
          Jest.options call !! k = defaults !! k)
     ∧ Jest.options call !! "args" = None
     ∧ spread (args_or_default (default ∅ options)) = Normal (drop 3 (arguments call))
     ∧ take 3 (arguments call) = [jestBin; testFile; "--no-color"])
  ∧ (args_well_typed options = true →
     ∃ call,
       runJestSimulation_call jestBin testFile options = Normal call
       ∧ runJestSimulation execa jestBin testFile options = execa call
       ∧ Jest.options call = object_spread defaults (execaOptions (default ∅ options))
       ∧ arguments call = [jestBin; testFile; "--no-color"] ++ caller_args options).
Proof.
  split.
  - intros call Hcall. unfold runJestSimulation. rewrite Hcall.
    apply call_inv in Hcall as (rest & Hrest & ->). simpl. repeat split; try done.
    + intros k v Hk Hv. by rewrite forwarded_lookup, Hv.
    + intros k Hk Hv. by rewrite forwarded_lookup, Hv.
    + unfold object_spread, execaOptions.
      rewrite lookup_union, lookup_delete_eq. reflexivity.
  - intros Hty. eexists. split; [by apply call_well_typed|].
    unfold runJestSimulation. by rewrite (call_well_typed _ _ _ Hty).
Qed.

Lemma runJestSimulation_options_forwarded_witness :
  ∃ call,
    runJestSimulation_call "jest.js" "agent.test.ts"
      (Some (<["args" := VArr ["--ci"]]>
               (<["stdout" := VStr "inherit"]> (<["cwd" := VStr "/repo"]> ∅))))
    = Normal call
    ∧ runJestSimulation (execa (λ _, Exited (mkProcessExit 0 "" "")))
        "jest.js" "agent.test.ts"
        (Some (<["args" := VArr ["--ci"]]>
                 (<["stdout" := VStr "inherit"]> (<["cwd" := VStr "/repo"]> ∅))))
      = execa (λ _, Exited (mkProcessExit 0 "" "")) call
    ∧ Jest.options call
      = <["reject" := VBool false]>
          (<["stdout" := VStr "inherit"]>
             (<["stderr" := VStr "pipe"]> (<["cwd" := VStr "/repo"]> ∅)))
    ∧ arguments call = ["jest.js"; "agent.test.ts"; "--no-color"; "--ci"].
Proof.
  exact (proj2 (runJestSimulation_options_forwarded
                  (execa (λ _, Exited (mkProcessExit 0 "" "")))
                  "jest.js" "agent.test.ts"
                  (Some (<["args" := VArr ["--ci"]]>
                           (<["stdout" := VStr "inherit"]>
                              (<["cwd" := VStr "/repo"]> ∅)))))
           eq_refl).
Defined.





End JestFacts.

(** ** simulationTest *)
Section HarnessFacts.
Import Harness.
Context {Args Runner Agent St : Type} `{!SimulationAgentRunner Args Runner Agent St}.
Implicit Types (fn : SimulationFn Agent St) (w : World St) (agentArgs : Args).

Local Ltac ends_as way :=
  do 3 eexists; split; [reflexivity|]; eapply way; eassumption.

(** Every run of a test made by [simulationTest] goes one of the ways of [Run]. *)
Lemma simulationTest_run (name : string) agentArgs fn w :
  ∃ p w' tr,
    test_fn (simulationTest name agentArgs fn) w = (p, w', tr)
    ∧ Run agentArgs fn w p w' tr.
Proof.
  unfold simulationTest, simulationTest_body, test_bind, statement, on_ext, new_array.
  simpl.
  destruct (new_SimulationAgentRunner agentArgs (ext w)) as [[runner|e] s1] eqn:Hnew;
    simpl; [|ends_as ConstructorThrows].
  destruct (getAgent runner s1) as [[agent|e] s2] eqn:Hget;
    simpl; [|ends_as GetAgentThrows].
  destruct (fn _ _) as [[returned|e] w3] eqn:Hfn; simpl; [|ends_as FnThrows].
  destruct (await_returned returned w3) as [[[]|e] w4] eqn:Hawait;
    simpl; [|ends_as FnRejects].
  unfold await.
  destruct (runAllTurns runner w4) as [[[]|e] w5] eqn:Hrun; simpl.
  - do 3 eexists; split; [reflexivity|].
    by eapply (TurnsRun _ _ _ _ _ _ _ _ _ _ (Resolved tt)).
  - do 3 eexists; split; [reflexivity|].
    by eapply (TurnsRun _ _ _ _ _ _ _ _ _ _ (Rejected e)).
Qed.

Local Ltac index_cases i :=
  repeat (destruct i as [|i]; simpl in *; try discriminate).

(** Two results of one call are the same result. *)
Local Ltac same_call :=
  repeat match goal with
         | H1 : ?c = _, H2 : ?c = _ |- _ => rewrite H1 in H2; simplify_eq
         end.

(** C1: the body of a test made by [simulationTest] first constructs the
    runner from the given arguments. [runAllTurns()] is invoked only in a run
    where the constructor returned the runner, [getAgent()] returned the
    agent, the callback was called with a context of that agent and the logs
    array in the very state the constructor and [getAgent()] left, and the
    callback has completed: it returned no promise, or the promise it
    returned has settled as resolved. [runAllTurns()] then starts in the
    world that completion left, as the sixth and last statement. Conversely,
    a callback that returns nothing, or whose promise resolves, is followed
    by [runAllTurns()], started where the callback, respectively the settled
    promise, left the world. And the body itself runs no turn before the
    callback: any count of turns that the constructor and [getAgent()] leave
    unchanged has, when the callback is called, the value it had when the
    test started. *)
Theorem simulationTest_setup_before_turns (name : string) agentArgs fn w :
  test_name (simulationTest name agentArgs fn) = name
  ∧ ∃ p w' tr,
      test_fn (simulationTest name agentArgs fn) w = (p, w', tr)
      ∧ (∃ rest, labels tr = NewLogs :: Construct agentArgs :: rest)
      ∧ (∀ i runner, labels tr !! i = Some (RunAllTurns runner) →
           ∃ s1 agent s2 returned w3 w4,
             new_SimulationAgentRunner agentArgs (ext w) = (Normal runner, s1)
             ∧ getAgent runner s1 = (Normal agent, s2)
             ∧ fn (mkContext agent (length (heap w))) (mkWorld (heap w ++ [[]]) s2)
               = (Normal returned, w3)
             ∧ ((returned = ReturnsVoid ∧ w4 = w3)
                ∨ ∃ settle, returned = ReturnsPromise settle
                            ∧ settle w3 = (Resolved tt, w4))
             ∧ labels tr = [NewLogs; Construct agentArgs; GetAgent runner;
                            CallFn (mkContext agent (length (heap w))); AwaitFn;
                            RunAllTurns runner]
             ∧ i = 5
             ∧ Forall (λ e, normal e = true) (take 5 tr)
             ∧ before <$> tr !! 3 = Some (mkWorld (heap w ++ [[]]) s2)
             ∧ after <$> tr !! 3 = Some w3
             ∧ before <$> tr !! 5 = Some w4
             ∧ runAllTurns runner w4 = (p, w'))
      ∧ (∀ runner s1 agent s2 w3,
           new_SimulationAgentRunner agentArgs (ext w) = (Normal runner, s1) →
           getAgent runner s1 = (Normal agent, s2) →
           fn (mkContext agent (length (heap w))) (mkWorld (heap w ++ [[]]) s2)
             = (Normal ReturnsVoid, w3) →
           labels tr !! 5 = Some (RunAllTurns runner)
           ∧ before <$> tr !! 5 = Some w3
           ∧ runAllTurns runner w3 = (p, w'))
      ∧ (∀ runner s1 agent s2 settle w3 w4,
           new_SimulationAgentRunner agentArgs (ext w) = (Normal runner, s1) →
           getAgent runner s1 = (Normal agent, s2) →
           fn (mkContext agent (length (heap w))) (mkWorld (heap w ++ [[]]) s2)
             = (Normal (ReturnsPromise settle), w3) →
           settle w3 = (Resolved tt, w4) →
           labels tr !! 5 = Some (RunAllTurns runner)
           ∧ before <$> tr !! 5 = Some w4
           ∧ runAllTurns runner w4 = (p, w'))
      ∧ (∀ (Count : Type) (turns : St → Count),
           (∀ s runner s1,
              new_SimulationAgentRunner agentArgs s = (Normal runner, s1) →
              turns s1 = turns s) →
           (∀ runner s agent s',
              getAgent runner s = (Normal agent, s') → turns s' = turns s) →
           ∀ entry context,
             entry ∈ tr → label entry = CallFn context →
             turns (ext (before entry)) = turns (ext w)).
Proof.
  split; [reflexivity|].
  destruct (simulationTest_run name agentArgs fn w) as (p & w' & tr & Heq & Hrun).
  exists p, w', tr. split; [exact Heq|].
  destruct Hrun as [e s1 Hnew | runner s1 e s2 Hnew Hget
                   | runner s1 ag s2 e w3 Hnew Hget Hfn
                   | runner s1 ag s2 returned w3 e w4 Hnew Hget Hfn Hawait
                   | runner s1 ag s2 returned w3 w4 p w5 Hnew Hget Hfn Hawait Hturns];
    simpl; (split; [eauto|]); split.
  all: try (intros i r Hi; index_cases i; fail).
  all: match goal with
       | |- _ ∧ _ ∧ _ => split; [|split]
       | _ => idtac
       end.
  all: try (intros Count turns Hconstructor HgetAgent entry context Hin Hlabel;
            repeat (apply elem_of_cons in Hin as [-> | Hin]; [try discriminate|]);
            try (by apply elem_of_nil in Hin);
            cbn [before ext];
            by rewrite (HgetAgent _ _ _ _ Hget), (Hconstructor _ _ _ Hnew)).
  all: try (intros; same_call;
            cbn [await_returned] in *; unfold await in *;
            try match goal with
                | Hs : ?settle ?w3 = (Resolved tt, _), Ha : context [?settle ?w3] |- _ =>
                    rewrite Hs in Ha
                end;
            by simplify_eq).
  intros i r Hi. index_cases i. injection Hi as <-.
  exists s1, ag, s2, returned, w3, w4.
  repeat split; try eassumption; try done; [|repeat constructor].
  destruct returned as [|settle]; cbn [await_returned] in Hawait.
  - left. by simplify_eq.
  - right. exists settle. split; [done|]. unfold await in Hawait.
    destruct (settle w3) as [[[]|e] w6]; by simplify_eq.
Qed.

(** C8: when the constructor and [getAgent()] have returned and the callback
    throws, or the promise it returned rejects, the test's promise rejects
    with that error, the run ends in the world the callback left, and
    [runAllTurns()] is not among the executed statements. *)
Theorem simulationTest_setup_failure (name : string) agentArgs fn w
    (runner : Runner) (s1 : St) (agent : Agent) (s2 : St) (e : JsError) (wf : World St) :
  new_SimulationAgentRunner agentArgs (ext w) = (Normal runner, s1) →
  getAgent runner s1 = (Normal agent, s2) →
  (fn (mkContext agent (length (heap w))) (mkWorld (heap w ++ [[]]) s2) = (Throw e, wf)
   ∨ ∃ settle w3,
       fn (mkContext agent (length (heap w))) (mkWorld (heap w ++ [[]]) s2)
         = (Normal (ReturnsPromise settle), w3)
       ∧ settle w3 = (Rejected e, wf)) →
  ∃ tr,
    test_fn (simulationTest name agentArgs fn) w = (Rejected e, wf, tr)
    ∧ (∀ r, RunAllTurns r ∉ labels tr)
    ∧ ∃ entry,
        last tr = Some entry ∧ normal entry = false ∧ after entry = wf
        ∧ (label entry = CallFn (mkContext agent (length (heap w)))
           ∨ label entry = AwaitFn).
Proof.
  intros Hnew Hget Hfn.
  destruct (simulationTest_run name agentArgs fn w) as (p & w' & tr & Heq & Hrun).
  assert (Hawait : ∀ settle w3, settle w3 = (Rejected e, wf) →
            await_returned (ReturnsPromise settle) w3 = (Throw e, wf)).
  { intros settle w3 Hs. simpl. unfold await. by rewrite Hs. }
  destruct Hrun; destruct Hfn as [Hfn | (settle & w3' & Hfn & Hsettle)];
    try congruence; same_call;
    try (specialize (Hawait _ _ Hsettle)); same_call.
  all: eexists; split; [exact Heq|]; split;
    [intros r; rewrite list_elem_of_In; simpl; intuition discriminate|].
  all: eexists; split; [reflexivity|]; simpl; auto.
Qed.


End HarnessFacts.

(** ** The turn engine *)
Section EngineFacts.
Import Protocol Engine.
Open Scope Z_scope.

Implicit Types (a : SimulationAgent DeterministicConversationGenerator)
  (f : Z → ConversationMessage) (h : Harness.Heap).

Lemma stopTokenReturned_false (m : ConversationMessage) :
  m ≠ UserStop → stopTokenReturned m = false.
Proof. by destruct m. Qed.

Lemma runTurn_terminal {G : Type} `{!AgentConversationGenerator G}
    (a : SimulationAgent G) (h : Harness.Heap) :
  status a = Terminal → runTurn a h = (Resolved true, a, h).
Proof. unfold runTurn. by intros ->. Qed.

(** One turn of an agent with a scripted generator. *)
Lemma runTurn_scripted f a h :
  in_step f a →
  let n := turn a + 1 in
  let ends := stopTokenReturned (f n) || (limit a <=? n) in
  ∃ a' h',
    runTurn a h = (Resolved ends, a', h')
    ∧ turn a' = n
    ∧ limit a' = limit a
    ∧ status a' = (if ends then Terminal else Running)
    ∧ (ends = false → in_step f a')
    ∧ mark <$> emitted a' =
      (mark <$> emitted a) ++ [StartOf n; EndOf n]
      ++ (if ends
          then [Ended (if stopTokenReturned (f n) then StopToken else MaxTurns) n]
          else []).
Proof.
  intros [Hf Hst] n ends. subst ends n.
  destruct a as [[sc pos] lim t st last hs em]. simpl in *. subst sc.
  unfold runTurn; simpl.
  assert (Hpos : f (match st with Idle => 1 | _ => pos end) = f (t + 1)).
  { destruct st; [by subst t | by subst pos | done]. }
  destruct st; [| |done]; simpl in *; rewrite ?Hpos.
  all: destruct (stopTokenReturned (f (t + 1))) eqn:Hs; simpl.
  all: try destruct (lim <=? t + 1) eqn:Hl; simpl.
  all: do 2 eexists; split; [reflexivity|]; simpl.
  all: repeat split; try done; try (by subst); try lia.
  all: rewrite ?fmap_app, <- ?app_assoc; simpl; try done.
Qed.

Lemma turn_marks_S (first : Z) (count : nat) :
  turn_marks first (S count) = StartOf first :: EndOf first :: turn_marks (first + 1) count.
Proof. reflexivity. Qed.

Lemma StartOf_turn_marks (j first : Z) (count : nat) :
  StartOf j ∈ turn_marks first count → first ≤ j < first + Z.of_nat count.
Proof.
  revert first. induction count as [|count IH]; intros first; simpl.
  - by intros ?%elem_of_nil.
  - rewrite !elem_of_cons. intros [Heq | [Heq | Hin]]; [injection Heq; lia | done |].
    apply IH in Hin. lia.
Qed.

(** A run of turns of a scripted agent up to the first turn [stop] with a
    terminal condition. *)
Lemma drive_scripted (fuel : nat) f a h (stop : Z) (reason : EndReason) :
  in_step f a →
  turn a < stop ≤ turn a + Z.of_nat fuel →
  (∀ i, turn a < i < stop → stopTokenReturned (f i) = false ∧ i < limit a) →
  (stopTokenReturned (f stop) = true ∧ reason = StopToken
   ∨ stopTokenReturned (f stop) = false ∧ limit a ≤ stop ∧ reason = MaxTurns) →
  ∃ a' h',
    drive fuel a h = (Resolved tt, a', h')
    ∧ turn a' = stop
    ∧ status a' = Terminal
    ∧ mark <$> emitted a' =
      (mark <$> emitted a) ++ turn_marks (turn a + 1) (Z.to_nat (stop - turn a))
      ++ [Ended reason stop].
Proof.
  revert a h. induction fuel as [|fuel IH]; intros a h Hstep Hstop Hbefore Hat; [lia|].
  destruct (runTurn_scripted f a h Hstep) as (a1 & h1 & Hrun & Hturn & Hlim & Hst & Hnext & Hem).
  simpl. rewrite Hrun.
  destruct (decide (turn a + 1 = stop)) as [Heq | Hne].
  - subst stop.
    assert (Hends : stopTokenReturned (f (turn a + 1)) || (limit a <=? turn a + 1) = true).
    { destruct Hat as [[-> _] | (-> & Hle & _)]; [done|]. simpl. lia. }
    rewrite Hends in *. exists a1, h1. repeat split; try done.
    rewrite Hem. replace (Z.to_nat (turn a + 1 - turn a)) with 1%nat by lia.
    simpl.
    destruct Hat as [[-> ->] | (-> & _ & ->)]; reflexivity.
  - destruct (Hbefore (turn a + 1)) as [Hs Hl]; [lia|].
    assert (Hends : stopTokenReturned (f (turn a + 1)) || (limit a <=? turn a + 1) = false).
    { rewrite Hs. simpl. lia. }
    rewrite Hends in *.
    destruct (IH a1 h1) as (a' & h' & Hdrive & Hturn' & Hst' & Hem').
    + by apply Hnext.
    + lia.
    + intros i Hi. rewrite Hlim. apply Hbefore. lia.
    + by rewrite Hlim.
    + exists a', h'. repeat split; try done.
      rewrite Hem', Hem, Hturn.
      replace (Z.to_nat (stop - turn a)) with (S (Z.to_nat (stop - (turn a + 1)))) by lia.
      rewrite turn_marks_S, app_nil_r, <- !app_assoc. reflexivity.
Qed.

Lemma runAllTurns_terminal (r : @Runner DeterministicConversationGenerator) h :
  status (agent r) = Terminal → runAllTurns r h = (Resolved tt, r, h).
Proof.
  intros Hst. destruct r as [a]. unfold runAllTurns. simpl in *.
  destruct (Z.to_nat (limit a - turn a)); simpl; [done|].
  by rewrite runTurn_terminal.
Qed.

Lemma last_emitted (l : list Event) (prefix : list Mark) (r : EndReason) (n : Z) :
  mark <$> l = prefix ++ [Ended r n] → last l = Some (ConversationEnd r n).
Proof.
  destruct l as [|x l _] using rev_ind; simpl.
  - intros Hnil. by destruct prefix.
  - rewrite fmap_app. simpl. intros [_ Hx]%app_inj_tail.
    rewrite last_snoc. destruct x; simpl in Hx; by simplify_eq.
Qed.

(** A run of a fresh runner with a scripted generator, up to the first turn
    with a terminal condition. *)
Lemma runAllTurns_scripted (n stop : Z) (reason : EndReason) f (role task : string)
    (start : Z) h :
  1 ≤ stop ≤ n →
  (∀ i, 1 ≤ i < stop → f i ≠ UserStop) →
  (f stop = UserStop ∧ reason = StopToken
   ∨ f stop ≠ UserStop ∧ stop = n ∧ reason = MaxTurns) →
  ∃ r r' h',
    new_Runner (mkArgs role task (mkDeterministic f start) n) = Normal r
    ∧ turn (getAgent r) = 0
    ∧ emitted (getAgent r) = []
    ∧ runAllTurns r h = (Resolved tt, r', h')
    ∧ turn (agent r') = stop
    ∧ status (agent r') = Terminal
    ∧ mark <$> emitted (agent r') = turn_marks 1 (Z.to_nat stop) ++ [Ended reason stop].
Proof.
  intros Hstop Hbefore Hat.
  unfold new_Runner, new_SimulationAgent. simpl.
  destruct (n <=? 0) eqn:Hn; [lia|].
  set (a0 := mkAgent (mkDeterministic f start) n 0 Idle (UserMessage task) [] []).
  destruct (drive_scripted (Z.to_nat (n - 0)) f a0 h stop reason)
    as (a' & h' & Hdrive & Hturn & Hst & Hem).
  - by split.
  - simpl. lia.
  - simpl. intros i Hi. split; [apply stopTokenReturned_false, Hbefore|]; lia.
  - simpl. destruct Hat as [[Hs ->] | (Hs & -> & ->)].
    + left. by rewrite Hs.
    + right. split; [by apply stopTokenReturned_false|]. split; [lia|done].
  - exists (mkRunner a0), (mkRunner a'), h'.
    split; [reflexivity|]. split; [reflexivity|]. split; [reflexivity|].
    split.
    { unfold runAllTurns. change (agent (mkRunner a0)) with a0.
      change (limit a0) with n. change (turn a0) with 0. by rewrite Hdrive. }
    simpl. repeat split; try done.
    rewrite Hem. simpl. by rewrite Z.sub_0_r.
Qed.

(** C2: for [maxTurns = n >= 1] and a scripted generator that returns no
    stop sentinel on the turns 1..n, the run of a fresh runner resolves after
    exactly [n] turns: the counter is [n], the agent is terminal, the events
    are [turnStart]/[turnEnd] of the turns 1..n in order, and the last event
    is [conversationEnd] with reason "max-turns" and turn [n]. *)
Theorem runAllTurns_max_turns (n : Z) f (role task : string) (start : Z) h :
  1 ≤ n →
  (∀ i, 1 ≤ i ≤ n → f i ≠ UserStop) →
  ∃ r r' h',
    new_Runner (mkArgs role task (mkDeterministic f start) n) = Normal r
    ∧ turn (getAgent r) = 0
    ∧ runAllTurns r h = (Resolved tt, r', h')
    ∧ turn (agent r') = n
    ∧ status (agent r') = Terminal
    ∧ mark <$> emitted (agent r') = turn_marks 1 (Z.to_nat n) ++ [Ended MaxTurns n]
    ∧ last (emitted (agent r')) = Some (ConversationEnd MaxTurns n)
    ∧ reason_text MaxTurns = "max-turns".
Proof.
  intros Hn Hf.
  destruct (runAllTurns_scripted n n MaxTurns f role task start h)
    as (r & r' & h' & Hnew & Hturn0 & _ & Hrun & Hturn & Hst & Hem).
  - lia.
  - intros i Hi. apply Hf. lia.
  - right. split; [apply Hf; lia|done].
  - exists r, r', h'. repeat split; try done. by eapply last_emitted.
Qed.

(** C3: for a scripted generator whose first stop sentinel comes on turn
    [k <= maxTurns], the run of a fresh runner resolves at turn [k]: the
    counter is [k], the agent is terminal, the last event is
    [conversationEnd] with reason "stop-token" and turn [k], no [turnStart]
    of turn [k+1] is among the events, and a further [runAllTurns()] changes
    nothing. *)
Theorem runAllTurns_stop_token (n k : Z) f (role task : string) (start : Z) h :
  1 ≤ k ≤ n →
  f k = UserStop →
  (∀ i, 1 ≤ i < k → f i ≠ UserStop) →
  ∃ r r' h',
    new_Runner (mkArgs role task (mkDeterministic f start) n) = Normal r
    ∧ runAllTurns r h = (Resolved tt, r', h')
    ∧ turn (agent r') = k
    ∧ status (agent r') = Terminal
    ∧ mark <$> emitted (agent r') = turn_marks 1 (Z.to_nat k) ++ [Ended StopToken k]
    ∧ last (emitted (agent r')) = Some (ConversationEnd StopToken k)
    ∧ reason_text StopToken = "stop-token"
    ∧ (StartOf (k + 1) ∉ (mark <$> emitted (agent r')))
    ∧ runAllTurns r' h' = (Resolved tt, r', h').
Proof.
  intros Hk Hstop Hbefore.
  destruct (runAllTurns_scripted n k StopToken f role task start h)
    as (r & r' & h' & Hnew & _ & _ & Hrun & Hturn & Hst & Hem); [done|done|by left|].
  exists r, r', h'. repeat split; try done.
  - by eapply last_emitted.
  - rewrite Hem, elem_of_app, list_elem_of_singleton.
    intros [Hin%StartOf_turn_marks | Heq]; [lia|discriminate].
  - by apply runAllTurns_terminal.
Qed.

Lemma turns_run_snoc {G : Type} (s : @Store G) (r : @Runner G) :
  turns_run (s ++ [r]) = turns_run s + turn (agent r).
Proof.
  induction s as [|r' s IH]; simpl; [lia|]. rewrite IH. lia.
Qed.

(** The modelled constructor adds a runner that has run no turn, and
    [getAgent()] changes nothing. *)
Lemma store_new_runs_no_turn {G : Type} `{!AgentConversationGenerator G}
    (args : AgentConstructorArgs G) (s : @Store G) (runner : nat) (s1 : @Store G) :
  store_new args s = (Normal runner, s1) → turns_run s1 = turns_run s.
Proof.
  unfold store_new, new_Runner, new_SimulationAgent.
  destruct (maxTurns args <=? 0); [discriminate|].
  intros [= _ <-]. rewrite turns_run_snoc. simpl. lia.
Qed.

Lemma store_getAgent_runs_no_turn {G : Type}
    (runner : nat) (s : @Store G) (agent : nat) (s' : @Store G) :
  store_getAgent runner s = (Normal agent, s') → turns_run s' = turns_run s.
Proof. by intros [= _ <-]. Qed.

End EngineFacts.

(** ** The scenarios, run *)
Section ScenarioFacts.
Import Protocol Engine Scenario.
Open Scope Z_scope.

Lemma runAllTurns_max_turns_witness :
  ∃ r r' h',
    new_Runner (agentArgs always_content 3) = Normal r
    ∧ turn (getAgent r) = 0
    ∧ runAllTurns r [] = (Resolved tt, r', h')
    ∧ turn (agent r') = 3
    ∧ status (agent r') = Terminal
    ∧ mark <$> emitted (agent r') = turn_marks 1 (Z.to_nat 3) ++ [Ended MaxTurns 3]
    ∧ last (emitted (agent r')) = Some (ConversationEnd MaxTurns 3)
    ∧ reason_text MaxTurns = "max-turns".
Proof.
  refine (runAllTurns_max_turns 3 always_content "test" "example" 1 [] _ _).
  - lia.
  - intros i _. discriminate.
Defined.

Lemma runAllTurns_stop_token_witness :
  ∃ r r' h',
    new_Runner (agentArgs stop_on_second 5) = Normal r
    ∧ runAllTurns r [] = (Resolved tt, r', h')
    ∧ turn (agent r') = 2
    ∧ status (agent r') = Terminal
    ∧ mark <$> emitted (agent r') = turn_marks 1 (Z.to_nat 2) ++ [Ended StopToken 2]
    ∧ last (emitted (agent r')) = Some (ConversationEnd StopToken 2)
    ∧ reason_text StopToken = "stop-token"
    ∧ (StartOf (2 + 1) ∉ (mark <$> emitted (agent r')))
    ∧ runAllTurns r' h' = (Resolved tt, r', h').
Proof.
  refine (runAllTurns_stop_token 5 2 stop_on_second "test" "example" 1 [] _ _ _).
  - lia.
  - reflexivity.
  - intros i Hi. assert (i = 1) as -> by lia. discriminate.
Defined.

(** The documentation's example, run: the handler installed by the callback
    sees every turn, the six statements run in order, and the callback is
    called while the agent is idle, no turn run. *)
Example captures_all_turn_events :
  let run :=
    Harness.test_fn
      (Harness.simulationTest "captures all turn events" (agentArgs always_content 3)
         captures_turns)
      empty_world in
  run.1.1 = Resolved tt
  ∧ Harness.heap run.1.2 = [["Turn 1"; "Turn 2"; "Turn 3"]]
  ∧ Harness.labels run.2 =
    [Harness.NewLogs; Harness.Construct (agentArgs always_content 3);
     Harness.GetAgent 0%nat; Harness.CallFn (Harness.mkContext 0%nat 0%nat);
     Harness.AwaitFn; Harness.RunAllTurns 0%nat]
  ∧ Harness.before <$> run.2 !! 3%nat = Some (Harness.mkWorld [[]] [fresh_runner])
  ∧ status (agent fresh_runner) = Idle
  ∧ turn (agent fresh_runner) = 0.
Proof. vm_compute. repeat split. Qed.

Lemma simulationTest_setup_before_turns_witness :
  ∃ p w' tr,
    Harness.test_fn
      (Harness.simulationTest "captures all turn events" (agentArgs always_content 3)
         captures_turns_after_await)
      empty_world
    = (p, w', tr)
    ∧ Harness.labels tr !! 5%nat = Some (Harness.RunAllTurns 0%nat)
    ∧ Harness.before <$> tr !! 5%nat = Some (Harness.mkWorld [[]] [observed_runner])
    ∧ Harness.runAllTurns 0%nat (Harness.mkWorld [[]] [observed_runner]) = (p, w')
    ∧ p = Resolved tt
    ∧ Harness.heap w' = [["Turn 1"; "Turn 2"; "Turn 3"]]
    ∧ (∀ entry context,
         entry ∈ tr → Harness.label entry = Harness.CallFn context →
         turns_run (Harness.ext (Harness.before entry)) = 0).
Proof.
  destruct (simulationTest_setup_before_turns "captures all turn events"
              (agentArgs always_content 3) captures_turns_after_await empty_world)
    as (_ & p & w' & tr & Heq & _ & _ & _ & Hsettled & Hturns).
  destruct (Hsettled 0%nat [fresh_runner] 0%nat [fresh_runner]
              (λ w, (Resolved tt,
                     install_log_turn (Harness.mkContext 0%nat 0%nat) w))
              (Harness.mkWorld [[]] [fresh_runner])
              (Harness.mkWorld [[]] [observed_runner])
              eq_refl eq_refl eq_refl eq_refl)
    as (Hlast & Hbefore & Hrun).
  exists p, w', tr. repeat split; try assumption.
  - vm_compute in Hrun. congruence.
  - vm_compute in Hrun. injection Hrun as _ <-. reflexivity.
  - intros entry context Hin Hlabel.
    exact (Hturns Z turns_run
             (store_new_runs_no_turn (agentArgs always_content 3))
             store_getAgent_runs_no_turn entry context Hin Hlabel).
Defined.

Lemma simulationTest_setup_failure_witness :
  ∃ tr,
    Harness.test_fn
      (Harness.simulationTest "rejecting setup" (agentArgs always_content 3) failing_setup)
      empty_world
    = (Rejected "setup failed", Harness.mkWorld [["setting up"]] [observed_runner], tr)
    ∧ (∀ r, Harness.RunAllTurns r ∉ Harness.labels tr)
    ∧ ∃ entry,
        last tr = Some entry ∧ Harness.normal entry = false
        ∧ Harness.after entry = Harness.mkWorld [["setting up"]] [observed_runner]
        ∧ (Harness.label entry = Harness.CallFn (Harness.mkContext 0%nat 0%nat)
           ∨ Harness.label entry = Harness.AwaitFn).
Proof.
  refine (simulationTest_setup_failure "rejecting setup" (agentArgs always_content 3)
            failing_setup empty_world 0%nat [fresh_runner] 0%nat [fresh_runner]
            "setup failed" (Harness.mkWorld [["setting up"]] [observed_runner])
            eq_refl eq_refl _).
  right. do 2 eexists. split; reflexivity.
Defined.

End ScenarioFacts.

(** * Further properties *)


(** ** runJestSimulation: defaults, overrides and errors *)
Section JestEdges.
Import Jest.

Lemma args_other_key (o : JsObject) (k : string) (v : JsValue) :
  k ≠ "args" → args_or_default (<[k := v]> o) = args_or_default o.
Proof. intros Hk. unfold args_or_default. by rewrite lookup_insert_ne. Qed.

(** X4: a caller that supplies no arguments (no [args] property, [args:
    undefined] or an empty array) makes the helper invoke [node] with exactly
    the three fixed arguments, its other options still passed on over the
    defaults; a call without the options parameter invokes it with the three
    defaults alone. *)
Theorem runJestSimulation_without_args
    {Result : Type} (execa : ExecaCall → Promise Result)
    (jestBin testFile : string) (options : option JsObject) :
  (default ∅ options !! "args" = None
   ∨ default ∅ options !! "args" = Some VUndefined
   ∨ default ∅ options !! "args" = Some (VArr [])) →
  runJestSimulation execa jestBin testFile options
  = execa (mkExecaCall "node" [jestBin; testFile; "--no-color"]
             (object_spread defaults (execaOptions (default ∅ options))))
  ∧ runJestSimulation execa jestBin testFile None
    = execa (mkExecaCall "node" [jestBin; testFile; "--no-color"] defaults).
Proof.
  intros Hargs. unfold runJestSimulation. split.
  - unfold runJestSimulation_call, args_or_default.
    by destruct Hargs as [-> | [-> | ->]].
  - unfold runJestSimulation_call, args_or_default, object_spread, execaOptions. simpl.
    rewrite lookup_empty, delete_empty. simpl. by rewrite (left_id_L ∅ (∪)).
Qed.

Lemma runJestSimulation_without_args_witness :
  runJestSimulation (execa (λ _, Exited (mkProcessExit 0 "" "")))
    "jest.js" "agent.test.ts"
    (Some (<["args" := VUndefined]> (<["cwd" := VStr "/repo"]> ∅)))
  = execa (λ _, Exited (mkProcessExit 0 "" ""))
      (mkExecaCall "node" ["jest.js"; "agent.test.ts"; "--no-color"]
         (object_spread defaults
            (execaOptions (<["args" := VUndefined]> (<["cwd" := VStr "/repo"]> ∅)))))
  ∧ runJestSimulation (execa (λ _, Exited (mkProcessExit 0 "" "")))
      "jest.js" "agent.test.ts" None
    = execa (λ _, Exited (mkProcessExit 0 "" ""))
        (mkExecaCall "node" ["jest.js"; "agent.test.ts"; "--no-color"] defaults).
Proof.
  exact (runJestSimulation_without_args (execa (λ _, Exited (mkProcessExit 0 "" "")))
           "jest.js" "agent.test.ts"
           (Some (<["args" := VUndefined]> (<["cwd" := VStr "/repo"]> ∅)))
           (or_intror (or_introl eq_refl))).
Defined.

(** X5: setting one more option other than [args] changes the invocation in
    that option only: when the helper invokes the process invoker with [call]
    for some options, it invokes it for the options with [k] set to [v] with
    the same program and arguments and with the options of [call] in which
    [k] is set to [v], whether or not a default or an earlier value was
    there. *)
Theorem runJestSimulation_set_option
    {Result : Type} (execa : ExecaCall → Promise Result)
    (jestBin testFile : string) (o : JsObject) (k : string) (v : JsValue)
    (call : ExecaCall) :
  k ≠ "args" →
  runJestSimulation_call jestBin testFile (Some o) = Normal call →
  runJestSimulation execa jestBin testFile (Some o) = execa call
  ∧ runJestSimulation execa jestBin testFile (Some (<[k := v]> o))
    = execa (mkExecaCall (file call) (arguments call) (<[k := v]> (Jest.options call))).
Proof.
  intros Hk Hcall. unfold runJestSimulation. rewrite Hcall. split; [done|].
  apply call_inv in Hcall as (rest & Hrest & ->). simpl in *.
  unfold runJestSimulation_call. simpl.
  rewrite (args_other_key _ _ _ Hk), Hrest.
  unfold object_spread, execaOptions.
  by rewrite delete_insert_ne, insert_union_l by done.
Qed.

Lemma runJestSimulation_set_option_witness :
  runJestSimulation (execa (λ _, Exited (mkProcessExit 1 "" "")))
    "jest.js" "agent.test.ts" (Some (<["args" := VArr ["--ci"]]> ∅))
  = execa (λ _, Exited (mkProcessExit 1 "" ""))
      (mkExecaCall "node" ["jest.js"; "agent.test.ts"; "--no-color"; "--ci"] defaults)
  ∧ runJestSimulation (execa (λ _, Exited (mkProcessExit 1 "" "")))
      "jest.js" "agent.test.ts"
      (Some (<["reject" := VBool true]> (<["args" := VArr ["--ci"]]> ∅)))
    = execa (λ _, Exited (mkProcessExit 1 "" ""))
        (mkExecaCall "node" ["jest.js"; "agent.test.ts"; "--no-color"; "--ci"]
           (<["reject" := VBool true]> defaults)).
Proof.
  exact (runJestSimulation_set_option (execa (λ _, Exited (mkProcessExit 1 "" "")))
           "jest.js" "agent.test.ts"
           (<["args" := VArr ["--ci"]]> ∅) "reject" (VBool true)
           (mkExecaCall "node" ["jest.js"; "agent.test.ts"; "--no-color"; "--ci"] defaults)
           ltac:(discriminate) eq_refl).
Defined.

(** X6: setting [args] to an array always makes the helper invoke the
    process invoker, whatever [args] was before; the array becomes the tail
    of the argument list, and the options of the invocation are those of the
    other properties over the defaults, untouched by the array and without
    an [args] property. *)
Theorem runJestSimulation_set_args
    {Result : Type} (execa : ExecaCall → Promise Result)
    (jestBin testFile : string) (o : JsObject) (l : list string) :
  runJestSimulation execa jestBin testFile (Some (<["args" := VArr l]> o))
  = execa (mkExecaCall "node" ([jestBin; testFile; "--no-color"] ++ l)
             (object_spread defaults (execaOptions o)))
  ∧ (∀ k, k ≠ "args" →
       object_spread defaults (execaOptions o) !! k
       = match o !! k with Some v => Some v | None => defaults !! k end)
  ∧ object_spread defaults (execaOptions o) !! "args" = None.
Proof.
  assert (Hrest : execaOptions (<["args" := VArr l]> o) = execaOptions o).
  { unfold execaOptions. by rewrite delete_insert_eq. }
  repeat split.
  - unfold runJestSimulation, runJestSimulation_call, args_or_default. simpl.
    by rewrite lookup_insert_eq, Hrest.
  - intros k Hk. by apply forwarded_lookup.
  - unfold object_spread, execaOptions. by rewrite lookup_union, lookup_delete_eq.
Qed.

(** X7: when [args] holds a value that cannot be iterated ([null], a boolean
    or a number), building the argument list throws: the helper's promise
    rejects with that error and the process invoker is not called, so the
    outcome is the same for every invoker. *)
Theorem runJestSimulation_args_not_iterable
    (jestBin testFile : string) (o : JsObject) (v : JsValue) :
  o !! "args" = Some v →
  not_iterable v = true →
  ∃ e,
    runJestSimulation_call jestBin testFile (Some o) = Throw e
    ∧ ∀ (Result : Type) (execa : ExecaCall → Promise Result),
        runJestSimulation execa jestBin testFile (Some o) = Rejected e.
Proof.
  intros Hv Hni. exists "TypeError: args is not iterable".
  assert (Hcall : runJestSimulation_call jestBin testFile (Some o)
                  = Throw "TypeError: args is not iterable").
  { unfold runJestSimulation_call, args_or_default. simpl. rewrite Hv.
    by destruct v. }
  split; [done|]. intros Result execa. unfold runJestSimulation. by rewrite Hcall.
Qed.

Lemma runJestSimulation_args_not_iterable_witness :
  ∃ e,
    runJestSimulation_call "jest.js" "agent.test.ts" (Some (<["args" := VNull]> ∅)) = Throw e
    ∧ ∀ (Result : Type) (execa : ExecaCall → Promise Result),
        runJestSimulation execa "jest.js" "agent.test.ts" (Some (<["args" := VNull]> ∅))
        = Rejected e.
Proof.
  exact (runJestSimulation_args_not_iterable "jest.js" "agent.test.ts"
           (<["args" := VNull]> ∅) VNull eq_refl eq_refl).
Defined.

End JestEdges.

(** ** simulationTest: failures, order and the callback's form *)
Section HarnessEdges.
Import Harness.
Context {Args Runner Agent St : Type} `{!SimulationAgentRunner Args Runner Agent St}.
Implicit Types (fn : SimulationFn Agent St) (w : World St) (agentArgs : Args).

Local Ltac same_result :=
  repeat match goal with
         | H1 : ?c = _, H2 : ?c = _ |- _ => rewrite H1 in H2; simplify_eq
         end.

Local Ltac not_executed :=
  unfold not; intros;
  repeat match goal with
         | H : _ ∈ _ |- _ => apply list_elem_of_In in H; simpl in H
         end;
  intuition discriminate.

(** X9: when the runner's constructor throws, or [getAgent()] throws, the
    test's promise rejects with that error; the callback is never called and
    nothing is awaited or run, and all the run leaves in the heap is the
    empty logs array it allocated first. *)
Theorem simulationTest_construction_failure (name : string) agentArgs fn w (e : JsError) :
  ((∃ s1, new_SimulationAgentRunner agentArgs (ext w) = (Throw e, s1))
   ∨ (∃ runner s1 s2,
        new_SimulationAgentRunner agentArgs (ext w) = (Normal runner, s1)
        ∧ getAgent runner s1 = (Throw e, s2))) →
  ∃ w' tr,
    test_fn (simulationTest name agentArgs fn) w = (Rejected e, w', tr)
    ∧ heap w' = heap w ++ [[]]
    ∧ (∀ context, CallFn context ∉ labels tr)
    ∧ (AwaitFn ∉ labels tr)
    ∧ (∀ runner, RunAllTurns runner ∉ labels tr).
Proof.
  intros Hfail.
  destruct (simulationTest_run name agentArgs fn w) as (p & w' & tr & Heq & Hrun).
  destruct Hrun;
    destruct Hfail as [(s1' & Hnew) | (runner' & s1' & s2' & Hnew & Hget)];
    same_result; try congruence.
  all: do 2 eexists; split; [exact Heq|]; simpl.
  all: repeat split; try done; not_executed.
Qed.

(** X10: a run executes the statements of the body in order, each at most
    once, and stops at the first one that fails: between two and six
    statements run, every statement but the last completed normally, and the
    last one completed normally exactly when the test's promise resolved. A
    resolved test has run all six statements, [runAllTurns()] last. *)
Theorem simulationTest_stops_at_first_failure (name : string) agentArgs fn w :
  ∃ p w' tr,
    test_fn (simulationTest name agentArgs fn) w = (p, w', tr)
    ∧ statement_index <$> labels tr = seq 0 (length tr)
    ∧ (2 ≤ length tr ≤ 6)%nat
    ∧ Forall (λ entry, normal entry = true) (take (length tr - 1) tr)
    ∧ normal <$> last tr = Some (is_resolved p)
    ∧ (is_resolved p = true → length tr = 6%nat).
Proof.
  destruct (simulationTest_run name agentArgs fn w) as (p & w' & tr & Heq & Hrun).
  exists p, w', tr. split; [exact Heq|].
  destruct Hrun; simpl; repeat split; try lia; try done; repeat constructor.
Qed.

(** X11: wrapping the callback in an [async] function changes neither the
    test's promise nor the world the run ends in: a synchronous throw and a
    rejected promise reject the test alike, and returning nothing is the same
    as returning a resolved promise. When the callback does not throw
    synchronously, the executed statements are the same too. *)
Theorem simulationTest_async_callback (name : string) agentArgs fn w :
  (test_fn (simulationTest name agentArgs (as_async fn)) w).1
  = (test_fn (simulationTest name agentArgs fn) w).1
  ∧ ((∀ runner s1 agent s2,
        new_SimulationAgentRunner agentArgs (ext w) = (Normal runner, s1) →
        getAgent runner s1 = (Normal agent, s2) →
        is_normal (fn (mkContext agent (length (heap w)))
                     (mkWorld (heap w ++ [[]]) s2)).1 = true) →
     labels (test_fn (simulationTest name agentArgs (as_async fn)) w).2
     = labels (test_fn (simulationTest name agentArgs fn) w).2).
Proof.
  unfold simulationTest, simulationTest_body, test_bind, statement, on_ext, new_array,
    as_async.
  simpl.
  destruct (new_SimulationAgentRunner agentArgs (ext w)) as [[runner|e] s1] eqn:Hnew;
    simpl; [|done].
  destruct (getAgent runner s1) as [[agent|e] s2] eqn:Hget; simpl; [|done].
  destruct (fn _ _) as [[[|settle]|e] w3] eqn:Hfn; simpl.
  - unfold await. destruct (runAllTurns runner w3) as [[[]|e] w4]; by simpl.
  - unfold await. destruct (settle w3) as [[[]|e] w4]; simpl; [|done].
    destruct (runAllTurns runner w4) as [[[]|e] w5]; by simpl.
  - split; [done|]. intros Hnormal.
    specialize (Hnormal runner s1 agent s2 eq_refl Hget).
    rewrite Hfn in Hnormal. discriminate.
Qed.

End HarnessEdges.

(** ** The further properties, on the scenarios *)
Section ScenarioEdges.
Import Protocol Engine Scenario.

Lemma simulationTest_construction_failure_witness :
  ∃ w' tr,
    Harness.test_fn
      (Harness.simulationTest "no turns allowed" (agentArgs always_content 0) captures_turns)
      empty_world
    = (Rejected "maxTurns must be a positive integer", w', tr)
    ∧ Harness.heap w' = Harness.heap empty_world ++ [[]]
    ∧ (∀ context, Harness.CallFn context ∉ Harness.labels tr)
    ∧ (Harness.AwaitFn ∉ Harness.labels tr)
    ∧ (∀ runner, Harness.RunAllTurns runner ∉ Harness.labels tr).
Proof.
  refine (simulationTest_construction_failure "no turns allowed"
            (agentArgs always_content 0) captures_turns empty_world
            "maxTurns must be a positive integer" _).
  left. exists []. reflexivity.
Defined.

End ScenarioEdges.
